(** * frontend-template: the starter application's render functions and type contracts

    The executable core of the repository is three TypeScript modules:

    - the page module [src/app/page.tsx]: the parameterless [HomePage]
      component;
    - the layout module: the [metadata] export and the [RootLayout] component
      (in the source tree it follows the build and lint configuration, in
      [next.config.ts], lines 52 to 70);
    - the shared types module: the interfaces [PageProps] and [LayoutProps]
      ([unnamed/part_000]).

    Beside them stands the lint configuration (the [eslintConfig] array, in
    [next.config.ts], lines 9 to 51), embedded as the array it builds.

    The components are embedded as functions over a model of the JavaScript
    values they handle.  JSX is embedded the way the JSX transform compiles it:
    an element is a call that receives the tag, the attributes and the child
    slots as they stand in the source (whitespace included), cleans the literal
    text and builds the [props] object.  The interfaces are embedded as terms of
    a small language of TypeScript types with a membership test. *)

From Stdlib Require Import List String Ascii Bool ZArith.
From Stdlib Require Import Floats.PrimFloat.
Import ListNotations.

Local Open Scope string_scope.
Local Open Scope list_scope.

Set Warnings "-register-all".

(** ** JavaScript values *)

Module JS.

(** The state of a promise: not yet settled, fulfilled with a value, or
    rejected with a reason. *)
Inductive PromiseState (A : Type) : Type :=
| Pending
| Fulfilled (value : A)
| Rejected (reason : A).

Arguments Pending {A}.
Arguments Fulfilled {A} value.
Arguments Rejected {A} reason.

(** The values the program handles.  A plain object is its list of own
    properties in insertion order; a React element is kept apart from plain
    objects, with its [type] and its [props]. *)
Inductive Value : Type :=
| VUndefined
| VNull
| VBoolean (b : bool)
| VNumber (x : float)
| VBigInt (z : Z)
| VString (s : string)
| VArray (items : list Value)
| VObject (fields : list (string * Value))
| VPromise (state : PromiseState Value)
| VElement (type : string) (props : list (string * Value)).

(** The errors a call can throw. *)
Inductive Error : Type :=
| TypeError (message : string).

(** The outcome of a call: a returned value or a thrown error. *)
Inductive Completion (A : Type) : Type :=
| Normal (value : A)
| Throw (error : Error).

Arguments Normal {A} value.
Arguments Throw {A} error.

Definition bind {A B : Type} (c : Completion A) (k : A -> Completion B)
  : Completion B :=
  match c with
  | Normal a => k a
  | Throw e => Throw e
  end.

Definition is_normal {A : Type} (c : Completion A) : bool :=
  match c with
  | Normal _ => true
  | Throw _ => false
  end.

(** [get k fields]: the own property [k] of an object, [None] when absent.
    The first binding of a key is the property. *)
Fixpoint get (k : string) (fields : list (string * Value)) : option Value :=
  match fields with
  | [] => None
  | (k', v) :: rest => if String.eqb k' k then Some v else get k rest
  end.

(** [own_keys fields]: the property names of an object, in insertion order. *)
Definition own_keys (fields : list (string * Value)) : list string :=
  map fst fields.

(** Reading a property: an absent property reads as [undefined]. *)
Definition get_or_undefined (k : string) (fields : list (string * Value))
  : Value :=
  match get k fields with
  | Some v => v
  | None => VUndefined
  end.

(** The own property [k] of a value that is a plain object. *)
Definition property (k : string) (v : Value) : option Value :=
  match v with
  | VObject fields => get k fields
  | _ => None
  end.

(** The object binding pattern [{ children }] of a parameter list.  Destructuring
    [undefined] or [null] throws a [TypeError]; a plain object yields its
    [children] property, [undefined] when it has none; no other value of the
    model has a property of that name. *)
Definition destructure_children (arg : Value) : Completion Value :=
  match arg with
  | VUndefined =>
      Throw (TypeError "Cannot destructure property 'children' of 'undefined' as it is undefined.")
  | VNull =>
      Throw (TypeError "Cannot destructure property 'children' of 'null' as it is null.")
  | VObject fields => Normal (get_or_undefined "children" fields)
  | _ => Normal VUndefined
  end.

End JS.

Import JS.

Notation "x <- c ;; k" := (JS.bind c (fun x => k))
  (at level 61, c at next level, right associativity).

(** ** JSX *)

Module JSX.

Definition LF : ascii := "010"%char.
Definition CR : ascii := "013"%char.
Definition TAB : ascii := "009"%char.
Definition SPACE : ascii := " "%char.

Definition is_empty (s : string) : bool :=
  match s with
  | EmptyString => true
  | String _ _ => false
  end.

(** Splitting a literal text into its lines, at [\r\n], [\n] or [\r]. *)
Fixpoint split_lines (s : string) : list string :=
  match s with
  | EmptyString => [EmptyString]
  | String c rest =>
      if Ascii.eqb c LF then EmptyString :: split_lines rest
      else if Ascii.eqb c CR then
        match rest with
        | String c' rest' =>
            if Ascii.eqb c' LF then EmptyString :: split_lines rest'
            else EmptyString :: split_lines rest
        | EmptyString => EmptyString :: split_lines rest
        end
      else
        match split_lines rest with
        | line :: lines => String c line :: lines
        | [] => [String c EmptyString]
        end
  end.

(** A text that holds no line break. *)
Fixpoint no_line_break (s : string) : bool :=
  match s with
  | EmptyString => true
  | String c rest =>
      negb (Ascii.eqb c LF || Ascii.eqb c CR) && no_line_break rest
  end.

(** A line is non-empty when it has a character other than space and tab. *)
Fixpoint has_non_blank (s : string) : bool :=
  match s with
  | EmptyString => false
  | String c rest =>
      if Ascii.eqb c SPACE || Ascii.eqb c TAB then has_non_blank rest else true
  end.

Fixpoint last_non_empty_line (i acc : nat) (lines : list string) : nat :=
  match lines with
  | [] => acc
  | line :: rest =>
      last_non_empty_line (S i) (if has_non_blank line then i else acc) rest
  end.

Fixpoint tabs_to_spaces (s : string) : string :=
  match s with
  | EmptyString => EmptyString
  | String c rest =>
      String (if Ascii.eqb c TAB then SPACE else c) (tabs_to_spaces rest)
  end.

Fixpoint trim_start (s : string) : string :=
  match s with
  | EmptyString => EmptyString
  | String c rest => if Ascii.eqb c SPACE then trim_start rest else s
  end.

Fixpoint trim_end (s : string) : string :=
  match s with
  | EmptyString => EmptyString
  | String c rest =>
      let rest' := trim_end rest in
      if Ascii.eqb c SPACE && is_empty rest' then EmptyString
      else String c rest'
  end.

(** The lines of a literal text, cleaned and joined: tabs become spaces, every
    line but the first loses its leading spaces, every line but the last its
    trailing spaces, empty lines vanish, and the lines that remain are
    separated by one space. *)
Fixpoint clean_lines (i count last : nat) (lines : list string) : string :=
  match lines with
  | [] => EmptyString
  | line :: rest =>
      let t := tabs_to_spaces line in
      let t := if Nat.eqb i 0 then t else trim_start t in
      let t := if Nat.eqb i (count - 1) then t else trim_end t in
      let t :=
        if is_empty t then t
        else if Nat.eqb i last then t
        else String.append t (String SPACE EmptyString) in
      String.append t (clean_lines (S i) count last rest)
  end.

(** The string a literal JSX text contributes as a child, [None] when the
    cleaned text is empty.  (Character references are not decoded: the texts
    of this program have none.) *)
Definition clean_text (raw : string) : option string :=
  let lines := split_lines raw in
  let str := clean_lines 0 (List.length lines) (last_non_empty_line 0 0 lines) lines in
  if is_empty str then None else Some str.

(** A child slot of a JSX element, as written in the source. *)
Inductive Child : Type :=
| Text (raw : string)
| Expression (v : Value)
| Element (v : Value).

(** The values the child slots contribute, in order. *)
Fixpoint child_values (children : list Child) : list Value :=
  match children with
  | [] => []
  | Text raw :: rest =>
      match clean_text raw with
      | Some s => VString s :: child_values rest
      | None => child_values rest
      end
  | Expression v :: rest => v :: child_values rest
  | Element v :: rest => v :: child_values rest
  end.

(** The element a JSX expression evaluates to: the attributes become props,
    followed by [children], which is the child itself when there is one, an
    array when there are several, and missing when there is none. *)
Definition jsx (type : string) (attributes : list (string * Value))
    (children : list Child) : Value :=
  VElement type
    (attributes ++
     match child_values children with
     | [] => []
     | [child] => [("children", child)]
     | several => [("children", VArray several)]
     end).

End JSX.

Import JSX.

(** ** The shared types module *)

Module Types.

(** The TypeScript types the declarations of the program are written with. *)
Inductive TsType : Type :=
| TString
| TUndefined
| TReactNode
| TArray (item : TsType)
| TUnion (alternatives : list TsType)
| TPromise (result : TsType)
| TRecord (key value : TsType)
| TInterface (members : list (string * TsType))
| TReadonly (t : TsType).

(** [React.ReactNode]: an element, a string, a number, a bigint, a boolean,
    [null], [undefined], a sequence of nodes, or a promise of a node.  A plain
    object is not a node. *)
Fixpoint is_react_node (v : Value) : bool :=
  match v with
  | VUndefined | VNull | VBoolean _ | VNumber _ | VBigInt _ | VString _ => true
  | VArray items => forallb is_react_node items
  | VObject _ => false
  | VPromise (Fulfilled x) => is_react_node x
  | VPromise _ => true
  | VElement _ _ => true
  end.

(** [has_type t v]: the value [v] is assignable to the type [t].  An interface
    asks for its members and allows further properties; a promise is checked
    on the value it is fulfilled with, if any; [Readonly] changes nothing on
    values. *)
Fixpoint has_type (t : TsType) (v : Value) {struct t} : bool :=
  match t with
  | TString => match v with VString _ => true | _ => false end
  | TUndefined => match v with VUndefined => true | _ => false end
  | TReactNode => is_react_node v
  | TArray item =>
      match v with
      | VArray items => forallb (has_type item) items
      | _ => false
      end
  | TUnion alternatives =>
      (fix any (ts : list TsType) : bool :=
         match ts with
         | [] => false
         | t' :: rest => has_type t' v || any rest
         end) alternatives
  | TPromise result =>
      match v with
      | VPromise (Fulfilled x) => has_type result x
      | VPromise _ => true
      | _ => false
      end
  | TRecord key value =>
      match v with
      | VObject fields =>
          forallb
            (fun kv => has_type key (VString (fst kv)) && has_type value (snd kv))
            fields
      | _ => false
      end
  | TInterface members =>
      match v with
      | VObject fields =>
          (fix all (ms : list (string * TsType)) : bool :=
             match ms with
             | [] => true
             | (name, t') :: rest =>
                 match get name fields with
                 | Some x => has_type t' x
                 | None => false
                 end && all rest
             end) members
      | _ => false
      end
  | TReadonly t' => has_type t' v
  end.

(** The property names a type declares. *)
Fixpoint member_names (t : TsType) : list string :=
  match t with
  | TInterface members => map fst members
  | TReadonly t' => member_names t'
  | _ => []
  end.

(** [export interface PageProps]. *)
Definition PageProps : TsType :=
  TInterface
    [ ("params", TPromise (TRecord TString TString));
      ("searchParams",
       TPromise (TRecord TString (TUnion [TString; TArray TString; TUndefined]))) ].

(** [export interface LayoutProps]. *)
Definition LayoutProps : TsType :=
  TInterface
    [ ("children", TReactNode);
      ("params", TPromise (TRecord TString TString)) ].

End Types.

Import Types.

(** ** The page module *)

Module Page.

Definition nl : string := String LF EmptyString.

(** [export default function HomePage(): React.ReactElement].  The function
    declares no parameter, so whatever arguments a caller passes are
    ignored. *)
Definition HomePage (_arguments : list Value) : Completion Value :=
  Normal
    (jsx "main"
       [("className", VString "flex min-h-screen flex-col items-center justify-center p-24")]
       [ Text (nl ++ "      ")%string;
         Element
           (jsx "h1" [("className", VString "text-4xl font-bold")]
              [Text "Frontend Template"]);
         Text (nl ++ "      ")%string;
         Element
           (jsx "p" [("className", VString "mt-4 text-lg text-gray-600")]
              [Text (nl ++ "        Next.js + React + Tailwind CSS" ++ nl ++ "      ")%string]);
         Text (nl ++ "    ")%string ]).

End Page.

(** ** The layout module *)

(** The module also imports the global stylesheet, for its effect on the
    bundle alone; it binds no value. *)

Module Layout.

Definition nl : string := String LF EmptyString.

(** [export const metadata: Metadata]. *)
Definition metadata : Value :=
  VObject
    [ ("title", VString "Frontend Template");
      ("description", VString "Next.js frontend template with Tailwind CSS") ].

(** The type annotation of the parameter of [RootLayout]:
    [Readonly<{ children: React.ReactNode }>]. *)
Definition RootLayout_props : TsType :=
  TReadonly (TInterface [("children", TReactNode)]).

(** [export default function RootLayout({ children })]. *)
Definition RootLayout (props : Value) : Completion Value :=
  children <- destructure_children props ;;
  Normal
    (jsx "html" [("lang", VString "en")]
       [ Text (nl ++ "      ")%string;
         Element
           (jsx "body" [("className", VString "antialiased")]
              [Expression children]);
         Text (nl ++ "    ")%string ]).

End Layout.

Import Page Layout.

(** ** Reading a rendered structure *)

Module Tree.

Definition element_type (v : Value) : option string :=
  match v with
  | VElement type _ => Some type
  | _ => None
  end.

Definition element_props (v : Value) : list (string * Value) :=
  match v with
  | VElement _ props => props
  | _ => []
  end.

(** The [children] prop of an element. *)
Definition children_prop (v : Value) : option Value :=
  get "children" (element_props v).

(** The child nodes of an element: the entries of an array of children, the
    single child otherwise. *)
Definition child_nodes (v : Value) : list Value :=
  match children_prop v with
  | None => []
  | Some (VArray items) => items
  | Some child => [child]
  end.

(** The elements of a structure in document order: an element comes before
    the elements of its children, the entries of an array come left to
    right. *)
Fixpoint elements (v : Value) : list Value :=
  match v with
  | VArray items => flat_map elements items
  | VElement _ props =>
      v :: (fix of_children (ps : list (string * Value)) : list Value :=
              match ps with
              | [] => []
              | (k, c) :: rest =>
                  if String.eqb k "children" then elements c
                  else of_children rest
              end) props
  | _ => []
  end.

Definition has_tag (tag : string) (v : Value) : bool :=
  match element_type v with
  | Some type => String.eqb type tag
  | None => false
  end.

(** A heading element is one of [h1] to [h6]. *)
Definition is_heading (v : Value) : bool :=
  existsb (fun tag => has_tag tag v) ["h1"; "h2"; "h3"; "h4"; "h5"; "h6"].

Definition is_paragraph (v : Value) : bool := has_tag "p" v.

(** Splitting at spaces; the class names of a [className] are the non-empty
    pieces. *)
Fixpoint split_spaces (s : string) : list string :=
  match s with
  | EmptyString => [EmptyString]
  | String c rest =>
      if Ascii.eqb c SPACE then EmptyString :: split_spaces rest
      else
        match split_spaces rest with
        | word :: words => String c word :: words
        | [] => [String c EmptyString]
        end
  end.

Definition class_names (v : Value) : list string :=
  match get "className" (element_props v) with
  | Some (VString s) => filter (fun w => negb (is_empty w)) (split_spaces s)
  | _ => []
  end.

Definition has_class (class : string) (v : Value) : bool :=
  existsb (String.eqb class) (class_names v).

(** The utility classes behind the layout the home page asks for:
    [min-h-screen] is a minimum height of the full viewport, [flex] with
    [flex-col] a flex column, [items-center] with [justify-center] centres the
    content on both axes, [p-24] is a fixed padding. *)
Definition full_height_centered_column (v : Value) : bool :=
  forallb (fun class => has_class class v)
    ["min-h-screen"; "flex"; "flex-col"; "items-center"; "justify-center"; "p-24"].

(** [Substring needle s]: [needle] occurs in [s]. *)
Definition Substring (needle s : string) : Prop :=
  exists before after : string,
    s = String.append before (String.append needle after).

(** The value inside the body of a document: the [children] of the [body]
    element that is the child of the [html] root. *)
Definition body_of (document : Value) : option Value :=
  match document with
  | VElement type _ =>
      if String.eqb type "html" then
        match children_prop document with
        | Some (VElement type' props') =>
            if String.eqb type' "body" then Some (VElement type' props')
            else None
        | _ => None
        end
      else None
  | _ => None
  end.

Definition body_content (document : Value) : option Value :=
  match body_of document with
  | Some body => children_prop body
  | None => None
  end.

(** The value of a string attribute of an element. *)
Definition attribute (name : string) (v : Value) : option string :=
  match get name (element_props v) with
  | Some (VString s) => Some s
  | _ => None
  end.

End Tree.

Import Tree.

(** ** The input shapes the specification describes *)

Module Contract.

Definition is_string (v : Value) : Prop :=
  exists s : string, v = VString s.

(** An ordered sequence of strings. *)
Definition is_string_sequence (v : Value) : Prop :=
  exists items : list Value, v = VArray items /\ Forall is_string items.

(** A single string, a sequence of strings, or absent. *)
Definition is_query_value (v : Value) : Prop :=
  is_string v \/ is_string_sequence v \/ v = VUndefined.

(** A mapping from names to values that satisfy [P]. *)
Definition mapping_to (P : Value -> Prop) (v : Value) : Prop :=
  exists fields : list (string * Value),
    v = VObject fields /\ forall k x, In (k, x) fields -> P x.

(** A value delivered asynchronously: a promise whose result, once it is
    there, satisfies [P]. *)
Definition deferred (P : Value -> Prop) (v : Value) : Prop :=
  exists state : PromiseState Value,
    v = VPromise state /\ forall x, state = Fulfilled x -> P x.

(** What a routed view receives: the route parameters and the query
    parameters, under the names the code gives them ([params] and
    [searchParams]). *)
Definition PageInputs (v : Value) : Prop :=
  exists routeParams queryParams : Value,
    property "params" v = Some routeParams /\
    deferred (mapping_to is_string) routeParams /\
    property "searchParams" v = Some queryParams /\
    deferred (mapping_to is_query_value) queryParams.

(** What a layout receives: the nested content and the route parameters. *)
Definition LayoutInputs (v : Value) : Prop :=
  exists children routeParams : Value,
    property "children" v = Some children /\
    is_react_node children = true /\
    property "params" v = Some routeParams /\
    deferred (mapping_to is_string) routeParams.

(** A component's input interface includes a field when the type of its
    parameter declares it. *)
Definition declares (t : TsType) (name : string) : Prop :=
  In name (member_names t).

End Contract.

Import Contract.

(** ** The structures the components return *)

(** The element [HomePage] returns. *)
Definition home : Value :=
  VElement "main"
    [ ("className", VString "flex min-h-screen flex-col items-center justify-center p-24");
      ("children",
       VArray
         [ VElement "h1"
             [ ("className", VString "text-4xl font-bold");
               ("children", VString "Frontend Template") ];
           VElement "p"
             [ ("className", VString "mt-4 text-lg text-gray-600");
               ("children", VString "Next.js + React + Tailwind CSS") ] ]) ].

(** The document [RootLayout] returns around [children]. *)
Definition document (children : Value) : Value :=
  VElement "html"
    [ ("lang", VString "en");
      ("children",
       VElement "body"
         [ ("className", VString "antialiased");
           ("children", children) ]) ].

(** The props object [{ children }]. *)
Definition only_children (children : Value) : Value :=
  VObject [("children", children)].

(** ** The lint configuration *)

Module Lint.

(** The [rules] object of the project's own entry: each rule is set to a
    severity followed by one options object. *)
Definition rules : list (string * Value) :=
  [ ("@typescript-eslint/no-unused-vars",
     VArray
       [ VString "error";
         VObject
           [ ("argsIgnorePattern", VString "^_");
             ("varsIgnorePattern", VString "^_") ] ]);
    ("@typescript-eslint/consistent-type-imports",
     VArray
       [ VString "error";
         VObject
           [ ("prefer", VString "type-imports");
             ("fixStyle", VString "inline-type-imports") ] ]);
    ("react/function-component-definition",
     VArray
       [ VString "error";
         VObject
           [ ("namedComponents", VString "function-declaration");
             ("unnamedComponents", VString "arrow-function") ] ]) ].

(** The entry of the configuration that holds the project's own rules. *)
Definition project_rules : Value :=
  VObject [("rules", VObject rules)].

(** [const eslintConfig = [...compat.extends(...), { rules }, prettier]].
    The entries [compat.extends] returns for the two presets and the imported
    [prettier] entry come from packages outside the repository; they are
    parameters. *)
Definition eslintConfig (presets : list Value) (prettier : Value)
  : list Value :=
  presets ++ [project_rules; prettier].

(** What an entry says about a rule, [None] when it does not configure it. *)
Definition rule_setting (rule : string) (entry : Value) : option Value :=
  match property "rules" entry with
  | Some rules => property rule rules
  | None => None
  end.

(** What a configuration array says about a rule: where several entries
    configure it, the later entry takes precedence. *)
Fixpoint deciding_setting (rule : string) (entries : list Value)
  : option Value :=
  match entries with
  | [] => None
  | entry :: rest =>
      match deciding_setting rule rest with
      | Some setting => Some setting
      | None => rule_setting rule entry
      end
  end.

End Lint.

Import Lint.

(** ** JSX children *)

(** Whitespace that holds a line break and nothing else contributes no
    child. *)
Lemma clean_text_indentation :
  clean_text (Page.nl ++ "      ")%string = None /\
  clean_text (Page.nl ++ "    ")%string = None.
Proof. split; reflexivity. Qed.

(** A text on a single line is kept as it is. *)
Lemma clean_text_heading :
  clean_text "Frontend Template" = Some "Frontend Template".
Proof. reflexivity. Qed.

(** A text on a line of its own loses the line breaks and the indentation
    around it. *)
Lemma clean_text_paragraph :
  clean_text
    (Page.nl ++ "        Next.js + React + Tailwind CSS" ++ Page.nl ++ "      ")%string
  = Some "Next.js + React + Tailwind CSS".
Proof. reflexivity. Qed.

(** A text without a line break is a single line. *)
Lemma split_lines_one_line (s : string) :
  no_line_break s = true -> split_lines s = [s].
Proof.
  induction s as [|c rest IH]; simpl; [reflexivity|].
  intros H. apply andb_true_iff in H as [Hc Hrest].
  apply negb_true_iff, orb_false_iff in Hc as [Hlf Hcr].
  rewrite Hlf, Hcr, (IH Hrest). reflexivity.
Qed.

Lemma append_empty_r (s : string) : String.append s EmptyString = s.
Proof. induction s as [|c s IH]; simpl; [reflexivity | now rewrite IH]. Qed.

Lemma tabs_to_spaces_is_empty (s : string) :
  is_empty (tabs_to_spaces s) = is_empty s.
Proof. destruct s; reflexivity. Qed.

(** A text written on one line is kept whole, leading and trailing spaces
    included; only its tabs become spaces. *)
Lemma clean_text_one_line (s : string) :
  no_line_break s = true ->
  is_empty s = false ->
  clean_text s = Some (tabs_to_spaces s).
Proof.
  intros Hline Hs. unfold clean_text.
  rewrite (split_lines_one_line s Hline). simpl.
  assert (Ht : is_empty (tabs_to_spaces s) = false)
    by now rewrite tabs_to_spaces_is_empty.
  rewrite Ht.
  destruct (has_non_blank s); simpl; now rewrite append_empty_r, Ht.
Qed.

(** Expression slots pass their values on untouched, whatever they are. *)
Lemma child_values_expressions (vs : list Value) :
  child_values (map Expression vs) = vs.
Proof. induction vs as [|v vs IH]; simpl; [reflexivity | now rewrite IH]. Qed.

Lemma jsx_single_expression type attributes (v : Value) :
  jsx type attributes [Expression v]
  = VElement type (attributes ++ [("children", v)]).
Proof. reflexivity. Qed.

(** The elements of an element are the element itself, then those of its
    [children] prop. *)
Lemma elements_element type props :
  elements (VElement type props)
  = VElement type props
    :: match get "children" props with
       | Some c => elements c
       | None => []
       end.
Proof.
  simpl. f_equal.
  induction props as [|[k c] rest IH]; simpl; [reflexivity|].
  destruct (String.eqb k "children"); [reflexivity | exact IH].
Qed.

(** ** The home page *)

Lemma HomePage_returns (arguments : list Value) :
  HomePage arguments = Normal home.
Proof. reflexivity. Qed.

Lemma Substring_refl (s : string) : Substring s s.
Proof.
  exists EmptyString, EmptyString. simpl.
  induction s as [|c s IH]; simpl; [reflexivity | now rewrite <- IH].
Qed.

(** C1. Whatever the request, the structure [HomePage] returns is a [main]
    container carrying the classes of a full-viewport-height, centred flex
    column with fixed padding; among its elements there is exactly one
    heading, whose text is "Frontend Template", and exactly one paragraph,
    whose text contains "Next.js + React + Tailwind CSS"; both are children of
    the container. *)
Theorem HomePage_heading_and_paragraph :
  forall arguments : list Value,
  exists (main heading paragraph : Value) (text : string),
    HomePage arguments = Normal main /\
    element_type main = Some "main" /\
    full_height_centered_column main = true /\
    filter is_heading (elements main) = [heading] /\
    children_prop heading = Some (VString "Frontend Template") /\
    filter is_paragraph (elements main) = [paragraph] /\
    children_prop paragraph = Some (VString text) /\
    Substring "Next.js + React + Tailwind CSS" text /\
    In heading (child_nodes main) /\
    In paragraph (child_nodes main).
Proof.
  intros arguments.
  eexists home, _, _, _.
  rewrite HomePage_returns.
  repeat split; try reflexivity.
  - apply Substring_refl.
  - simpl; auto.
  - simpl; auto.
Qed.

(** C7. Any two invocations of [HomePage] return the same structure: the
    result depends on no argument and on no state. *)
Theorem HomePage_same_output_every_time :
  forall first second : list Value,
    HomePage first = HomePage second.
Proof. intros first second. now rewrite !HomePage_returns. Qed.

(** C10. The [main] container of the home page has exactly two children, an
    [h1] heading followed by a [p] paragraph, and in document order the heading
    comes strictly before the paragraph. *)
Theorem HomePage_two_children_in_order :
  forall arguments : list Value,
  exists main heading paragraph : Value,
    HomePage arguments = Normal main /\
    child_nodes main = [heading; paragraph] /\
    List.length (child_nodes main) = 2 /\
    is_heading heading = true /\
    is_paragraph paragraph = true /\
    elements main = [main; heading; paragraph].
Proof.
  intros arguments.
  eexists home, _, _.
  rewrite HomePage_returns.
  repeat split; reflexivity.
Qed.


(** ** The document metadata *)

(** C3. The metadata the layout module declares is an object of exactly two
    fields, [title] and [description], whose values are the literals
    "Frontend Template" and "Next.js frontend template with Tailwind CSS".  It
    is a constant of the module, not a function of the route or of the
    request, so it is the same for every render. *)
Theorem metadata_title_and_description :
  exists fields : list (string * Value),
    metadata = VObject fields /\
    own_keys fields = ["title"; "description"] /\
    List.length fields = 2 /\
    get "title" fields = Some (VString "Frontend Template") /\
    get "description" fields
    = Some (VString "Next.js frontend template with Tailwind CSS").
Proof.
  eexists. split; [reflexivity|].
  repeat split; reflexivity.
Qed.

(** ** The root layout *)

Section RootLayoutFacts.

(** The children value the layout is called with. *)
Variable V : Value.

Lemma RootLayout_object (fields : list (string * Value)) :
  RootLayout (VObject fields)
  = Normal (document (get_or_undefined "children" fields)).
Proof. reflexivity. Qed.

Lemma RootLayout_only_children :
  RootLayout (only_children V) = Normal (document V).
Proof. reflexivity. Qed.

(** Without a props object the destructuring of the parameter throws. *)
Lemma RootLayout_undefined_throws :
  is_normal (RootLayout VUndefined) = false /\
  is_normal (RootLayout VNull) = false.
Proof. split; reflexivity. Qed.

Lemma document_injective (W : Value) :
  document V = document W -> V = W.
Proof. intros H. now injection H. Qed.

(** C2. For every children value [V], [RootLayout] called with
    [{ children: V }] returns a document whose body contains [V] itself: the
    layout is the fixed wrapper [document] around its children, [V] is read
    back unchanged from the body, and different children give different
    documents. *)
Theorem RootLayout_children_identity :
  RootLayout (only_children V) = Normal (document V) /\
  body_content (document V) = Some V /\
  (forall W : Value, document V = document W -> V = W).
Proof.
  split; [apply RootLayout_only_children|].
  split; [reflexivity|].
  intros W. apply document_injective.
Qed.

(** C8. For every children value, the document [RootLayout] returns has an
    [html] root whose [lang] attribute is "en", and a [body] element with the
    class [antialiased] whose children are the value passed in. *)
Theorem RootLayout_document_shell :
  exists root body : Value,
    RootLayout (only_children V) = Normal root /\
    element_type root = Some "html" /\
    attribute "lang" root = Some "en" /\
    body_of root = Some body /\
    element_type body = Some "body" /\
    has_class "antialiased" body = true /\
    children_prop body = Some V.
Proof.
  eexists (document V), _.
  rewrite RootLayout_only_children.
  repeat split; reflexivity.
Qed.

(** C9. For every children value [V], the body of the document has the
    props [className] and [children] and no other; its one [children] prop is
    [V] itself, the body is the only child of the root, and the elements of
    the document are the root, the body and the elements of [V]. *)
Theorem RootLayout_body_sole_content :
  exists root body : Value,
    RootLayout (only_children V) = Normal root /\
    child_nodes root = [body] /\
    element_type body = Some "body" /\
    own_keys (element_props body) = ["className"; "children"] /\
    children_prop body = Some V /\
    elements root = root :: body :: elements V.
Proof.
  eexists (document V), _.
  rewrite RootLayout_only_children.
  repeat split; reflexivity.
Qed.

End RootLayoutFacts.

(** ** The type contracts *)

Lemma has_type_union_cons (t : TsType) (ts : list TsType) (v : Value) :
  has_type (TUnion (t :: ts)) v = has_type t v || has_type (TUnion ts) v.
Proof. reflexivity. Qed.

Lemma has_type_interface_cons name (t : TsType) members fields :
  has_type (TInterface ((name, t) :: members)) (VObject fields)
  = match get name fields with
    | Some x => has_type t x
    | None => false
    end && has_type (TInterface members) (VObject fields).
Proof. reflexivity. Qed.

Lemma has_type_interface_object members (v : Value) :
  has_type (TInterface members) v = true -> exists fields, v = VObject fields.
Proof. destruct v; simpl; try discriminate. intros _. now eexists. Qed.

Lemma has_type_string (v : Value) :
  has_type TString v = true <-> is_string v.
Proof.
  split.
  - destruct v; simpl; try discriminate. intros _. now eexists.
  - intros [s ->]. reflexivity.
Qed.

Lemma has_type_undefined (v : Value) :
  has_type TUndefined v = true <-> v = VUndefined.
Proof.
  split.
  - destruct v; simpl; try discriminate. reflexivity.
  - intros ->. reflexivity.
Qed.

Lemma has_type_string_array (v : Value) :
  has_type (TArray TString) v = true <-> is_string_sequence v.
Proof.
  split.
  - destruct v as [| | | | | |items| | |]; simpl; try discriminate.
    intros H. exists items. split; [reflexivity|].
    apply Forall_forall. intros x Hx.
    apply has_type_string.
    exact (proj1 (forallb_forall _ _) H x Hx).
  - intros [items [-> H]]. simpl.
    apply forallb_forall. intros x Hx.
    apply has_type_string.
    exact (proj1 (Forall_forall _ _) H x Hx).
Qed.

Lemma has_type_query_value (v : Value) :
  has_type (TUnion [TString; TArray TString; TUndefined]) v = true
  <-> is_query_value v.
Proof.
  rewrite !has_type_union_cons.
  change (has_type (TUnion []) v) with false.
  rewrite orb_false_r, !orb_true_iff.
  rewrite has_type_string, has_type_string_array, has_type_undefined.
  reflexivity.
Qed.

(** A [Record<string, T>] is a mapping from names to values of type [T]. *)
Lemma has_type_record (t : TsType) (P : Value -> Prop) (v : Value) :
  (forall x, has_type t x = true <-> P x) ->
  has_type (TRecord TString t) v = true <-> mapping_to P v.
Proof.
  intros HP. split.
  - destruct v as [| | | | | | |fields| |]; simpl; try discriminate.
    intros H. exists fields. split; [reflexivity|].
    intros k x Hin. apply HP.
    exact (proj1 (forallb_forall _ _) H (k, x) Hin).
  - intros [fields [-> H]]. simpl.
    apply forallb_forall. intros [k x] Hin. simpl.
    apply HP. exact (H k x Hin).
Qed.

(** A [Promise<T>] is a value of type [T] delivered asynchronously. *)
Lemma has_type_promise (t : TsType) (P : Value -> Prop) (v : Value) :
  (forall x, has_type t x = true <-> P x) ->
  has_type (TPromise t) v = true <-> deferred P v.
Proof.
  intros HP. split.
  - destruct v as [| | | | | | | |state|]; simpl; try discriminate.
    intros H. exists state. split; [reflexivity|].
    intros x ->. now apply HP.
  - intros [state [-> H]]. destruct state as [|x|r]; simpl; try reflexivity.
    apply HP. now apply H.
Qed.

Lemma has_type_route_params (v : Value) :
  has_type (TPromise (TRecord TString TString)) v = true
  <-> deferred (mapping_to is_string) v.
Proof.
  apply has_type_promise. intros x.
  apply has_type_record. exact has_type_string.
Qed.

Lemma has_type_query_params (v : Value) :
  has_type
    (TPromise (TRecord TString (TUnion [TString; TArray TString; TUndefined]))) v
  = true
  <-> deferred (mapping_to is_query_value) v.
Proof.
  apply has_type_promise. intros x.
  apply has_type_record. exact has_type_query_value.
Qed.

(** A member of an interface: the property is there and has the member's
    type. *)
Lemma member_present name (t : TsType) fields :
  match get name fields with
  | Some x => has_type t x
  | None => false
  end = true
  <-> exists x, get name fields = Some x /\ has_type t x = true.
Proof.
  destruct (get name fields) as [x|]; split.
  - intros H. now exists x.
  - intros [y [Hy H]]. now injection Hy as ->.
  - discriminate.
  - intros [y [Hy _]]. discriminate.
Qed.

Lemma PageProps_PageInputs (v : Value) :
  has_type PageProps v = true <-> PageInputs v.
Proof.
  unfold PageInputs. split.
  - intros H. destruct (has_type_interface_object _ _ H) as [fields ->].
    unfold PageProps in H. rewrite !has_type_interface_cons in H.
    apply andb_true_iff in H as [Hp H].
    apply andb_true_iff in H as [Hs _].
    apply member_present in Hp as [p [Hp Tp]].
    apply member_present in Hs as [q [Hs Tq]].
    exists p, q. simpl.
    repeat split; try assumption.
    + now apply has_type_route_params.
    + now apply has_type_query_params.
  - intros [p [q [Hp [Tp [Hs Tq]]]]].
    destruct v; simpl in Hp; try discriminate.
    unfold PageProps. rewrite !has_type_interface_cons.
    apply andb_true_iff. split; [|apply andb_true_iff; split; [|reflexivity]].
    + apply member_present. exists p. split; [assumption|].
      now apply has_type_route_params.
    + apply member_present. exists q. split; [assumption|].
      now apply has_type_query_params.
Qed.

Lemma LayoutProps_LayoutInputs (v : Value) :
  has_type LayoutProps v = true <-> LayoutInputs v.
Proof.
  unfold LayoutInputs. split.
  - intros H. destruct (has_type_interface_object _ _ H) as [fields ->].
    unfold LayoutProps in H. rewrite !has_type_interface_cons in H.
    apply andb_true_iff in H as [Hc H].
    apply andb_true_iff in H as [Hp _].
    apply member_present in Hc as [c [Hc Tc]].
    apply member_present in Hp as [p [Hp Tp]].
    exists c, p. simpl.
    repeat split; try assumption.
    now apply has_type_route_params.
  - intros [c [p [Hc [Tc [Hp Tp]]]]].
    destruct v; simpl in Hc; try discriminate.
    unfold LayoutProps. rewrite !has_type_interface_cons.
    apply andb_true_iff. split; [|apply andb_true_iff; split; [|reflexivity]].
    + apply member_present. exists c. now split.
    + apply member_present. exists p. split; [assumption|].
      now apply has_type_route_params.
Qed.

(** C4. The shared interfaces have the shapes of the data model.
    [PageProps] declares the route parameters and the query parameters and
    nothing else, and a value has that type exactly when both are there, each
    a promise, the first of a mapping from names to strings, the second of a
    mapping from names to a string, a sequence of strings or [undefined].
    [LayoutProps] declares the children and the route parameters and nothing
    else, and a value has that type exactly when its children are a renderable
    node and its route parameters a promise of a mapping from names to
    strings. *)
Theorem shared_types_have_the_specified_shapes :
  member_names PageProps = ["params"; "searchParams"] /\
  member_names LayoutProps = ["children"; "params"] /\
  (forall v : Value, has_type PageProps v = true <-> PageInputs v) /\
  (forall v : Value, has_type LayoutProps v = true <-> LayoutInputs v).
Proof.
  split; [reflexivity|]. split; [reflexivity|]. split.
  - exact PageProps_PageInputs.
  - exact LayoutProps_LayoutInputs.
Qed.


(** A request of the root route: no route parameter, one repeated query
    parameter. *)
Example PageProps_accepts :
  has_type PageProps
    (VObject
       [ ("params", VPromise (Fulfilled (VObject [])));
         ("searchParams",
          VPromise
            (Fulfilled
               (VObject
                  [ ("q", VString "a");
                    ("tag", VArray [VString "x"; VString "y"]);
                    ("page", VUndefined) ]))) ])
  = true.
Proof. reflexivity. Qed.

(** A route parameter that is not a string, or a missing field, is
    refused. *)
Example PageProps_refuses :
  has_type PageProps
    (VObject
       [ ("params", VPromise (Fulfilled (VObject [("id", VNull)])));
         ("searchParams", VPromise Pending) ])
  = false /\
  has_type PageProps (VObject [("params", VPromise Pending)]) = false.
Proof. split; reflexivity. Qed.

(** ** What the root layout reads of its input *)

Lemma LayoutProps_fits_RootLayout_props (v : Value) :
  has_type LayoutProps v = true -> has_type RootLayout_props v = true.
Proof.
  intros H. destruct (has_type_interface_object _ _ H) as [fields ->].
  unfold LayoutProps in H. rewrite has_type_interface_cons in H.
  apply andb_true_iff in H as [Hc _].
  change (has_type RootLayout_props (VObject fields))
    with (has_type (TInterface [("children", TReactNode)]) (VObject fields)).
  rewrite has_type_interface_cons, Hc. reflexivity.
Qed.

Lemma RootLayout_props_object (v : Value) :
  has_type RootLayout_props v = true -> exists fields, v = VObject fields.
Proof. apply has_type_interface_object. Qed.

Lemma RootLayout_reads_children (first second : Value) :
  has_type RootLayout_props first = true ->
  has_type RootLayout_props second = true ->
  property "children" first = property "children" second ->
  RootLayout first = RootLayout second.
Proof.
  intros H1 H2 Heq.
  destruct (RootLayout_props_object _ H1) as [f1 ->].
  destruct (RootLayout_props_object _ H2) as [f2 ->].
  rewrite !RootLayout_object. unfold get_or_undefined.
  simpl in Heq. now rewrite Heq.
Qed.

(** C5, as stated, fails: the type of the parameter of [RootLayout] does not
    declare the route parameters, so its input interface does not include both
    fields. *)
Lemma RootLayout_interface_lacks_params :
  ~ ((declares RootLayout_props "children" /\ declares RootLayout_props "params") /\
     (forall first second : Value,
        has_type LayoutProps first = true ->
        has_type LayoutProps second = true ->
        property "children" first = property "children" second ->
        RootLayout first = RootLayout second)).
Proof.
  intros [[_ Hparams] _].
  unfold declares in Hparams. simpl in Hparams.
  destruct Hparams as [H|[]]. discriminate H.
Qed.

(** C5, amended. The type of the parameter of [RootLayout] declares
    [children] alone.  Every [LayoutProps] value is assignable to it all the
    same, its route parameters being a further property, and two such values
    with equal children give the same output whatever their route
    parameters. *)
Theorem RootLayout_consumes_only_children :
  forall first second : Value,
    has_type LayoutProps first = true ->
    has_type LayoutProps second = true ->
    property "children" first = property "children" second ->
    member_names RootLayout_props = ["children"] /\
    has_type RootLayout_props first = true /\
    has_type RootLayout_props second = true /\
    RootLayout first = RootLayout second.
Proof.
  intros first second H1 H2 Heq.
  apply LayoutProps_fits_RootLayout_props in H1, H2.
  repeat split; try assumption.
  now apply RootLayout_reads_children.
Qed.

(** Two layout inputs with the same children and different route
    parameters. *)
Lemma RootLayout_consumes_only_children_witness :
  RootLayout
    (VObject
       [ ("children", VString "page");
         ("params", VPromise (Fulfilled (VObject [("id", VString "1")]))) ])
  = RootLayout
      (VObject
         [ ("children", VString "page");
           ("params", VPromise Pending) ]).
Proof.
  apply (RootLayout_consumes_only_children
           (VObject
              [ ("children", VString "page");
                ("params", VPromise (Fulfilled (VObject [("id", VString "1")]))) ])
           (VObject
              [ ("children", VString "page");
                ("params", VPromise Pending) ]));
    reflexivity.
Defined.

(** C6. Neither component throws on a well-formed input: [HomePage] returns
    an element whatever it is called with, and [RootLayout] returns an element
    for every props value of its parameter's type, that is for every valid
    children value. *)
Theorem components_never_throw :
  forall (arguments : list Value) (props : Value),
    has_type RootLayout_props props = true ->
    (exists page, HomePage arguments = Normal page) /\
    (exists root, RootLayout props = Normal root).
Proof.
  intros arguments props H. split.
  - exists home. apply HomePage_returns.
  - destruct (RootLayout_props_object _ H) as [fields ->].
    eexists. apply RootLayout_object.
Qed.

(** The home page called with nothing, the layout called with the home page
    as its children. *)
Lemma components_never_throw_witness :
  (exists page, HomePage [] = Normal page) /\
  (exists root, RootLayout (only_children home) = Normal root).
Proof.
  apply (components_never_throw [] (only_children home)).
  reflexivity.
Defined.

(** The root route: the layout around the home page is a document in English
    whose body holds the page, heading and paragraph included. *)
Lemma root_route_document :
  exists page root : Value,
    HomePage [] = Normal page /\
    RootLayout (only_children page) = Normal root /\
    attribute "lang" root = Some "en" /\
    body_content root = Some page /\
    map element_type (elements root)
    = [Some "html"; Some "body"; Some "main"; Some "h1"; Some "p"].
Proof.
  exists home, (document home).
  repeat split; reflexivity.
Qed.


(** ** The root layout on arbitrary arguments *)


(** X2. A props object without a [children] property is refused by the type
    of the parameter, yet at run time it is rendered like
    [children: undefined]: the body is empty and the document has the two
    elements [html] and [body] only. *)
Theorem RootLayout_without_children :
  forall fields : list (string * Value),
    get "children" fields = None ->
    has_type RootLayout_props (VObject fields) = false /\
    RootLayout (VObject fields) = Normal (document VUndefined) /\
    RootLayout (VObject fields)
    = RootLayout (VObject (("children", VUndefined) :: fields)) /\
    List.length (elements (document VUndefined)) = 2.
Proof.
  intros fields H.
  rewrite !RootLayout_object. unfold get_or_undefined. rewrite H.
  repeat split.
  change (has_type RootLayout_props (VObject fields))
    with (has_type (TInterface [("children", TReactNode)]) (VObject fields)).
  rewrite has_type_interface_cons, H. reflexivity.
Qed.

(** Props that carry the route parameters and nothing to render. *)
Lemma RootLayout_without_children_witness :
  RootLayout (VObject [("params", VPromise Pending)])
  = Normal (document VUndefined).
Proof.
  apply (RootLayout_without_children [("params", VPromise Pending)]).
  reflexivity.
Defined.

(** X3. Around any content the layout adds the [html] and [body] elements
    and no other: the elements of the document are these two followed by the
    elements of the children, so the document has exactly the headings and the
    paragraphs of its children, whatever else the props carry. *)
Theorem RootLayout_adds_only_html_and_body :
  forall (fields : list (string * Value)) (page : Value),
    get "children" fields = Some page ->
    exists root body : Value,
      RootLayout (VObject fields) = Normal root /\
      body_of root = Some body /\
      elements root = root :: body :: elements page /\
      filter is_heading (elements root) = filter is_heading (elements page) /\
      filter is_paragraph (elements root) = filter is_paragraph (elements page).
Proof.
  intros fields page H.
  eexists (document page), _.
  rewrite RootLayout_object. unfold get_or_undefined. rewrite H.
  split; [reflexivity|]. split; [reflexivity|].
  assert (He : elements (document page)
               = document page
                 :: VElement "body"
                      [("className", VString "antialiased"); ("children", page)]
                 :: elements page) by reflexivity.
  split; [exact He|].
  rewrite He. split; reflexivity.
Qed.

(** The root route: the home page as children, beside the route
    parameters. *)
Lemma RootLayout_adds_only_html_and_body_witness :
  exists root body : Value,
    RootLayout (VObject [("children", home); ("params", VPromise Pending)])
    = Normal root /\
    body_of root = Some body /\
    elements root = root :: body :: elements home /\
    filter is_heading (elements root) = filter is_heading (elements home) /\
    filter is_paragraph (elements root) = filter is_paragraph (elements home).
Proof.
  apply (RootLayout_adds_only_html_and_body
           [("children", home); ("params", VPromise Pending)] home).
  reflexivity.
Defined.

(** X4. What a component returns is a React element, as its return type
    says, and so a valid children value: the result of [HomePage], and every
    result of [RootLayout], can be handed to [RootLayout] as children, which
    then returns a document again. *)
Theorem results_are_elements :
  forall (arguments : list Value) (props result : Value),
    HomePage arguments = Normal result \/ RootLayout props = Normal result ->
    element_type result <> None /\
    is_react_node result = true /\
    has_type RootLayout_props (only_children result) = true /\
    RootLayout (only_children result) = Normal (document result).
Proof.
  intros arguments props result [H | H].
  - rewrite HomePage_returns in H. injection H as <-.
    repeat split. discriminate.
  - destruct props; simpl in H; try discriminate;
      injection H as <-; repeat split; discriminate.
Qed.

(** A layout nested in a layout. *)
Lemma results_are_elements_witness :
  RootLayout (only_children (document home))
  = Normal (document (document home)).
Proof.
  apply (results_are_elements [] (only_children home) (document home)).
  right. reflexivity.
Defined.

(** ** The lint configuration: which entry decides a rule *)

Lemma deciding_setting_app (rule : string) (first second : list Value) :
  deciding_setting rule (first ++ second)
  = match deciding_setting rule second with
    | Some setting => Some setting
    | None => deciding_setting rule first
    end.
Proof.
  induction first as [|entry first IH]; simpl.
  - now destruct (deciding_setting rule second).
  - rewrite IH. now destruct (deciding_setting rule second).
Qed.

Lemma deciding_setting_eslintConfig (rule : string) presets (prettier : Value) :
  deciding_setting rule (eslintConfig presets prettier)
  = match rule_setting rule prettier with
    | Some setting => Some setting
    | None =>
        match rule_setting rule project_rules with
        | Some setting => Some setting
        | None => deciding_setting rule presets
        end
    end.
Proof.
  unfold eslintConfig. rewrite deciding_setting_app. simpl.
  destruct (rule_setting rule prettier); [reflexivity|].
  now destruct (rule_setting rule project_rules).
Qed.

Lemma rule_setting_project_rules (rule : string) :
  rule_setting rule project_rules = get rule rules.
Proof. reflexivity. Qed.

(** Every rule of the project's entry is an error with one options
    object. *)
Lemma project_rules_are_errors (rule : string) (setting : Value) :
  rule_setting rule project_rules = Some setting ->
  exists options, setting = VArray [VString "error"; VObject options].
Proof.
  rewrite rule_setting_project_rules. unfold rules. cbn [get].
  repeat match goal with
         | |- context [if String.eqb ?a ?b then _ else _] =>
             destruct (String.eqb a b)
         end;
    cbv iota; intros H; try discriminate; injection H as <-; eexists;
    reflexivity.
Qed.

(** X5. The project's rules override the presets: whatever entries the
    presets contribute, a rule of the project's entry that the prettier entry
    leaves alone is decided by the project's entry, as an error with the
    project's options. *)
Theorem project_rules_override_presets :
  forall (presets : list Value) (prettier : Value) (rule : string)
         (setting : Value),
    rule_setting rule project_rules = Some setting ->
    rule_setting rule prettier = None ->
    deciding_setting rule (eslintConfig presets prettier) = Some setting /\
    exists options, setting = VArray [VString "error"; VObject options].
Proof.
  intros presets prettier rule setting Hproject Hprettier.
  rewrite deciding_setting_eslintConfig, Hprettier, Hproject.
  split; [reflexivity|].
  now apply project_rules_are_errors with (rule := rule).
Qed.

(** A preset that only warns about unused variables, a prettier entry that
    turns off a formatting rule. *)
Lemma project_rules_override_presets_witness :
  deciding_setting "@typescript-eslint/no-unused-vars"
    (eslintConfig
       [ VObject
           [ ("rules",
              VObject [("@typescript-eslint/no-unused-vars", VString "warn")]) ] ]
       (VObject [("rules", VObject [("indent", VString "off")])]))
  = Some
      (VArray
         [ VString "error";
           VObject
             [ ("argsIgnorePattern", VString "^_");
               ("varsIgnorePattern", VString "^_") ] ]).
Proof.
  apply (project_rules_override_presets
           [ VObject
               [ ("rules",
                  VObject [("@typescript-eslint/no-unused-vars", VString "warn")]) ] ]
           (VObject [("rules", VObject [("indent", VString "off")])])
           "@typescript-eslint/no-unused-vars");
    reflexivity.
Defined.



(** X7. The configuration touches three rules and no more: a rule that is
    none of the project's three and that the prettier entry leaves alone is
    decided as the presets alone decide it. *)
Theorem other_rules_follow_the_presets :
  forall (presets : list Value) (prettier : Value) (rule : string),
    ~ In rule
        [ "@typescript-eslint/no-unused-vars";
          "@typescript-eslint/consistent-type-imports";
          "react/function-component-definition" ] ->
    rule_setting rule prettier = None ->
    deciding_setting rule (eslintConfig presets prettier)
    = deciding_setting rule presets.
Proof.
  intros presets prettier rule Hrule Hprettier.
  rewrite deciding_setting_eslintConfig, Hprettier.
  assert (Hproject : rule_setting rule project_rules = None).
  { rewrite rule_setting_project_rules. unfold rules. cbn [get].
    repeat match goal with
           | |- context [if String.eqb ?a ?b then _ else _] =>
               destruct (String.eqb_spec a b) as [Heq | _];
               [exfalso; apply Hrule; rewrite <- Heq; simpl; tauto | cbv iota]
           end.
    reflexivity. }
  now rewrite Hproject.
Qed.

(** A rule of a preset that nothing else mentions. *)
Lemma other_rules_follow_the_presets_witness :
  deciding_setting "react-hooks/rules-of-hooks"
    (eslintConfig
       [ VObject
           [("rules", VObject [("react-hooks/rules-of-hooks", VString "error")])] ]
       (VObject [("rules", VObject [])]))
  = deciding_setting "react-hooks/rules-of-hooks"
      [ VObject
          [("rules", VObject [("react-hooks/rules-of-hooks", VString "error")])] ].
Proof.
  apply (other_rules_follow_the_presets
           [ VObject
               [("rules", VObject [("react-hooks/rules-of-hooks", VString "error")])] ]
           (VObject [("rules", VObject [])])
           "react-hooks/rules-of-hooks").
  - simpl. intros [H|[H|[H|[]]]]; discriminate H.
  - reflexivity.
Defined.

(** ** How the declared types relate *)

Lemma mapping_to_weaken (P Q : Value -> Prop) (v : Value) :
  (forall x, P x -> Q x) -> mapping_to P v -> mapping_to Q v.
Proof.
  intros HPQ [fields [-> H]]. exists fields. split; [reflexivity|].
  intros k x Hin. apply HPQ. exact (H k x Hin).
Qed.

Lemma deferred_weaken (P Q : Value -> Prop) (v : Value) :
  (forall x, P x -> Q x) -> deferred P v -> deferred Q v.
Proof.
  intros HPQ [state [-> H]]. exists state. split; [reflexivity|].
  intros x Hx. apply HPQ. exact (H x Hx).
Qed.

Lemma route_params_are_query_params (v : Value) :
  deferred (mapping_to is_string) v -> deferred (mapping_to is_query_value) v.
Proof.
  apply deferred_weaken. intros x.
  apply mapping_to_weaken. intros y Hy. now left.
Qed.

(** X8. The type of the route parameters is a subtype of the type of the
    query parameters: in any page props, the route parameters can stand for
    the query parameters as well. *)
Theorem route_params_usable_as_query_params :
  forall (fields : list (string * Value)) (routeParams : Value),
    has_type PageProps (VObject fields) = true ->
    get "params" fields = Some routeParams ->
    has_type PageProps
      (VObject [("params", routeParams); ("searchParams", routeParams)])
    = true.
Proof.
  intros fields routeParams H Hget.
  apply PageProps_PageInputs in H as [p [q [Hp [Tp _]]]].
  simpl in Hp. rewrite Hget in Hp. injection Hp as <-.
  apply PageProps_PageInputs.
  exists routeParams, routeParams.
  repeat split; try reflexivity; try assumption.
  now apply route_params_are_query_params.
Qed.

(** The props of a route with one dynamic segment. *)
Lemma route_params_usable_as_query_params_witness :
  has_type PageProps
    (VObject
       [ ("params", VPromise (Fulfilled (VObject [("id", VString "42")])));
         ("searchParams", VPromise (Fulfilled (VObject [("id", VString "42")]))) ])
  = true.
Proof.
  apply (route_params_usable_as_query_params
           [ ("params", VPromise (Fulfilled (VObject [("id", VString "42")])));
             ("searchParams", VPromise Pending) ]
           (VPromise (Fulfilled (VObject [("id", VString "42")]))));
    reflexivity.
Defined.






